(** * Describing trends with a completion API: the notebook, embedded

    The repository is one Jupyter notebook, [2022-03-gpt-trends/Notebook.ipynb]
    (with a Markdown rendering of the same cells).  Its nine code cells are
    straight-line Python: one cell loads the credential from the process
    environment, one cell issues a smoke-test completion and prints the whole
    response, and seven cells issue a trend-summarisation completion and print
    [response["choices"][0]["text"]].

    The embedding below follows the cells statement by statement.  Python
    values are a small JSON-shaped inductive, exceptions are an error result,
    and the interpreter state (process environment, the module attribute
    [openai.api_key], the notebook global [response], and the observable
    trace of environment reads, client calls and prints) is threaded
    explicitly through a state-and-exception monad.  The hosted model and the
    client library are external: they appear as an arbitrary [w_endpoint]
    function of the world, over which every theorem quantifies. *)

From stdpp Require Import base list gmap strings pretty.
From Stdlib Require Import ZArith String Ascii.

Set Warnings "-register-all".
#[local] Arguments String.append : simpl nomatch.

Local Open Scope string_scope.
Local Open Scope list_scope.
Local Open Scope Z_scope.

(** ** Strings *)

(** The newline character, written [\n] in the Python source. *)
Definition nl : string := String "010"%char EmptyString.

(** A triple-quoted literal of the notebook is a sequence of lines, each one
    followed by a newline ([unlines]); a line-terminator-free literal is kept
    as it is. *)
Fixpoint unlines (ls : list string) : string :=
  match ls with
  | [] => ""
  | l :: ls' => l +:+ nl +:+ unlines ls'
  end.

(** [sub in s] of Python. *)
Fixpoint contains (sub s : string) : bool :=
  String.prefix sub s ||
  match s with
  | EmptyString => false
  | String _ s' => contains sub s'
  end.

(** [s.endswith(suf)] of Python: some tail of [s] is [suf]. *)
Fixpoint ends_with (suf s : string) : bool :=
  String.eqb suf s ||
  match s with
  | EmptyString => false
  | String _ s' => ends_with suf s'
  end.

(** [s.lstrip()] / [s.strip()] of Python, for the whitespace the model's
    completions carry (space, tab, newline, carriage return). *)
Fixpoint lstrip (s : string) : string :=
  match s with
  | EmptyString => EmptyString
  | String a s' => if Ascii.is_space a then lstrip s' else s
  end.

Definition strip (s : string) : string :=
  String.rev (lstrip (String.rev (lstrip s))).

(** [s.split(sep)] of Python for a non-empty separator.  [skip] counts the
    characters of a separator occurrence still to be dropped; [cur] is the
    field being read, reversed. *)
Fixpoint split_go (sep : string) (skip : nat) (cur : string) (s : string)
  : list string :=
  match s with
  | EmptyString => [String.rev cur]
  | String a s' =>
      match skip with
      | S k => split_go sep k cur s'
      | O =>
          if String.prefix sep s
          then String.rev cur :: split_go sep (Nat.pred (String.length sep)) "" s'
          else split_go sep O (String a cur) s'
      end
  end.

Definition split_on (sep s : string) : list string := split_go sep O "" s.

(** [s.splitlines()] restricted to the [\n] terminator the notebook uses: a
    final terminator does not open a further, empty line. *)
Definition lines (s : string) : list string :=
  match reverse (split_on nl s) with
  | EmptyString :: r => reverse r
  | _ => split_on nl s
  end.

(** ** Python values and exceptions *)

(** The JSON-shaped fragment of Python values a decoded completion response
    is made of (floats, which only occur under [logprobs], are left out). *)
Inductive pyval : Type :=
  | PNone
  | PInt (n : Z)
  | PStr (s : string)
  | PList (l : list pyval)
  | PDict (d : gmap string pyval).

(** A raised exception: the name of its class and its argument. *)
Record PyExn : Type := mkExn { exn_class : string; exn_arg : string }.

Inductive PyResult (A : Type) : Type :=
  | Ok (a : A)
  | Raise (e : PyExn).
Arguments Ok {A} a.
Arguments Raise {A} e.

Definition KeyError (key : string) : PyExn := mkExn "KeyError" key.
Definition IndexError (what : string) : PyExn :=
  mkExn "IndexError" (what +:+ " index out of range").
Definition TypeError (msg : string) : PyExn := mkExn "TypeError" msg.
Definition NameError (name : string) : PyExn :=
  mkExn "NameError" ("name '" +:+ name +:+ "' is not defined").

(** [l[i]] on a Python sequence: a negative index counts from the end. *)
Definition py_index {A : Type} (l : list A) (i : Z) : option A :=
  let n := Z.of_nat (List.length l) in
  let j := if i <? 0 then i + n else i in
  if (0 <=? j) && (j <? n) then l !! Z.to_nat j else None.

(** [v[key]] with a string key, as in [response["choices"]]. *)
Definition getitem_str (v : pyval) (key : string) : PyResult pyval :=
  match v with
  | PDict d =>
      match d !! key with
      | Some x => Ok x
      | None => Raise (KeyError key)
      end
  | PList _ => Raise (TypeError "list indices must be integers or slices, not str")
  | PStr _ => Raise (TypeError "string indices must be integers")
  | PNone => Raise (TypeError "'NoneType' object is not subscriptable")
  | PInt _ => Raise (TypeError "'int' object is not subscriptable")
  end.

(** [v[i]] with an integer index, as in [response["choices"][0]]. *)
Definition getitem_int (v : pyval) (i : Z) : PyResult pyval :=
  match v with
  | PList l =>
      match py_index l i with
      | Some x => Ok x
      | None => Raise (IndexError "list")
      end
  | PStr s =>
      match py_index (list_ascii_of_string s) i with
      | Some c => Ok (PStr (String c EmptyString))
      | None => Raise (IndexError "string")
      end
  | PDict _ => Raise (KeyError (pretty i))
  | PNone => Raise (TypeError "'NoneType' object is not subscriptable")
  | PInt _ => Raise (TypeError "'int' object is not subscriptable")
  end.

Definition bindR {A B : Type} (r : PyResult A) (k : A → PyResult B) : PyResult B :=
  match r with
  | Ok a => k a
  | Raise e => Raise e
  end.

(** The expression every trend cell prints: [response["choices"][0]["text"]]. *)
Definition extract_text (response : pyval) : PyResult pyval :=
  bindR (getitem_str response "choices") (λ choices,
  bindR (getitem_int choices 0) (λ first,
  getitem_str first "text")).

(** ** The interpreter state *)

(** The keyword arguments of one [openai.Completion.create] call. *)
Record Request : Type := mkRequest {
  engine : string;
  prompt : string;
  temperature : Z;
  max_tokens : Z
}.

(** What a run of the notebook does that can be observed from outside. *)
Inductive Event : Type :=
  | EGetenv (name : string)
  | ECreate (r : Request)
  | EPrint (v : pyval).

(** [w_endpoint] stands for the client library together with the hosted
    model: given the credential currently stored in [openai.api_key], what
    has happened so far and the request, it returns the decoded response or
    raises. *)
Record World : Type := mkWorld {
  w_environ : gmap string string;
  w_endpoint : pyval → list Event → Request → PyResult pyval;
  w_api_key : pyval;
  w_response : option pyval;
  w_trace : list Event
}.

Definition emit (ev : Event) (w : World) : World :=
  mkWorld (w_environ w) (w_endpoint w) (w_api_key w) (w_response w)
          (w_trace w ++ [ev]).

(** Statements: a result or an exception, and the state left behind. *)
Definition M (A : Type) : Type := World → PyResult A * World.

#[global] Instance M_ret : MRet M := λ A a w, (Ok a, w).

(** Sequencing: an exception ends the cell, keeping the state reached. *)
#[global] Instance M_bind : MBind M := λ A B k m w,
  match m w with
  | (Ok a, w') => k a w'
  | (Raise e, w') => (Raise e, w')
  end.

Definition lift {A : Type} (r : PyResult A) : M A := λ w, (r, w).

(** [os.getenv(name)]: the value, or [None] when the variable is unset. *)
Definition os_getenv (name : string) : M pyval :=
  λ w, (Ok (match w_environ w !! name with
            | Some v => PStr v
            | None => PNone
            end),
        emit (EGetenv name) w).

(** [openai.api_key = v] *)
Definition set_api_key (v : pyval) : M unit :=
  λ w, (Ok tt, mkWorld (w_environ w) (w_endpoint w) v (w_response w) (w_trace w)).

(** [openai.Completion.create(engine=..., prompt=..., temperature=...,
    max_tokens=...)] *)
Definition Completion_create (eng p : string) (t m : Z) : M pyval :=
  λ w, let r := mkRequest eng p t m in
       (w_endpoint w (w_api_key w) (w_trace w) r, emit (ECreate r) w).

(** [response = v] *)
Definition assign_response (v : pyval) : M unit :=
  λ w, (Ok tt, mkWorld (w_environ w) (w_endpoint w) (w_api_key w) (Some v) (w_trace w)).

(** reading the global [response] *)
Definition read_response : M pyval :=
  λ w, match w_response w with
       | Some v => (Ok v, w)
       | None => (Raise (NameError "response"), w)
       end.

(** [print(v)] *)
Definition print (v : pyval) : M unit := λ w, (Ok tt, emit (EPrint v) w).

(** ** The code cells *)

(** Cell 1:
<<
import os
import json
import openai
openai.api_key = os.getenv("OPENAI_API_KEY")
>> *)
Definition cell_setup : M unit :=
  key ← os_getenv "OPENAI_API_KEY";
  set_api_key key.

(** Cell 2:
<<
response = openai.Completion.create(engine="text-davinci-002",
    prompt="Say this is a test", temperature=0, max_tokens=6)
print(response)
>> *)
Definition cell_smoke : M unit :=
  r ← Completion_create "text-davinci-002" "Say this is a test" 0 6;
  assign_response r;;
  v ← read_response;
  print v.

(** The second statement of cells 3 to 9:
    [print(response["choices"][0]["text"])]. *)
Definition print_first_text : M unit :=
  v ← read_response;
  t ← lift (extract_text v);
  print t.

(** *** The prompt literals, as they stand in the notebook *)

(** Cell 3 (a one-line literal, no terminator). *)
Definition prompt_cell3 : string :=
  "Summarize the trend of the list of numbers 132, 329, 583, 743, 966, 1123, 1298 in one sentence".

(** Cell 4. *)
Definition prompt_cell4 : string := unlines [
  "Summarize the trend of the list of numbers in one sentence";
  "";
  "Numbers: 132, 329, 583, 743, 966, 1123, 1298";
  "Trend: The numbers increase steadily from just over 100 to almost 1300.";
  "";
  "Numbers: 300, 323, 293, 313, 341, 301, 329";
  "Trend: The numbers fluctuate between 293 and 341.";
  "";
  "Numbers: 99, 97, 96, 90, 87, 83, 82";
  "Trend: "
].

(** Cell 5. *)
Definition prompt_cell5 : string := unlines [
  "Summarize the trend of the list of numbers in one sentence";
  "";
  "Numbers: 132, 329, 583, 743, 966, 1123, 1298";
  "Trend: The numbers increase steadily from just over 100 to almost 1300.";
  "";
  "Numbers: 300, 323, 293, 313, 341, 301, 329";
  "Trend: The numbers fluctuate between 293 and 341.";
  "";
  "Numbers: 55, 54, 57, 5643, 56, 55, 54";
  "Trend: "
].

(** Cell 6. *)
Definition prompt_cell6 : string := unlines [
  "Summarize the trend of the list of numbers in one sentence";
  "";
  "Numbers: 132, 329, 583, 743, 966, 1123, 1298";
  "Trend: The numbers increase steadily from just over 100 on Monday to almost 1300 on Sunday.";
  "";
  "Numbers: 300, 323, 293, 313, 341, 301, 329";
  "Trend: The numbers fluctuate between 293 and 341.";
  "";
  "Numbers: 55, 54, 57, 5643, 56, 55, 54";
  "Trend: "
].

(** Cell 7. *)
Definition prompt_cell7 : string := unlines [
  "Summarize the trend of the list of numbers in one sentence";
  "";
  "Numbers: 132, 329, 583, 743, 966, 1123, 1298";
  "Trend: The numbers increase steadily from just over 100 on Monday to almost 1300 on Sunday.";
  "";
  "Numbers: 300, 323, 293, 313, 341, 301, 329";
  "Trend: The numbers fluctuate between 293 and 341 all week.";
  "";
  "Numbers: 7, 8, 11, 9, 218, 8, 8";
  "Trend: The numbers fluctuate between 7 and 11 all week, wih one outlier at 218 on Friday.";
  "";
  "Numbers: 55, 54, 57, 5643, 56, 55, 54";
  "Trend: "
].

(** Cell 8. *)
Definition prompt_cell8 : string := unlines [
  "Summarize the trend of the daily list of numbers in one sentence";
  "";
  "Numbers: M: 132, T: 329, W: 583, T: 743, F: 966, S: 1123, S: 1298";
  "Trend: The numbers increase steadily from just over 100 on Monday to almost 1300 on Sunday.";
  "";
  "Numbers: M: 300, T: 323, W: 293, T: 313, F: 341, S: 301, S: 329";
  "Trend: The numbers fluctuate between 293 and 341 all week.";
  "";
  "Numbers: M: 7, T: 8, W: 11, T: 9, F: 218, S: 8, S: 8";
  "Trend: The numbers fluctuate between 7 and 11 all week, wih one outlier at 218 on Friday.";
  "";
  "Numbers: M: 55, T: 54, W: 57, T: 5643, F: 56, S: 55, S: 54";
  "Trend: "
].

(** Cell 9. *)
Definition prompt_cell9 : string := unlines [
  "Summarize the trend of the daily list of numbers in one sentence";
  "";
  "Numbers: M: 132, T: 329, W: 583, T: 743, F: 966, S: 1123, S: 1298";
  "Trend: The numbers increase steadily from just over 100 on Monday to almost 1300 on Sunday.";
  "";
  "Numbers: M: 300, T: 323, W: 293, T: 313, F: 341, S: 301, S: 329";
  "Trend: The numbers fluctuate between 293 and 341 all week.";
  "";
  "Numbers: M: 7, T: 8, W: 11, T: 9, F: 218, S: 8, S: 8";
  "Trend: The numbers fluctuate between 7 and 11 all week, wih one outlier at 218 on Friday.";
  "";
  "Numbers: M: 37465, T: 52374, W: 39809, T: 30885, F: 44325, S: 230, S: 223";
  "Trend: "
].

(** Cells 3 to 9, each of the shape
<<
response = openai.Completion.create(engine="text-davinci-002",
                                    prompt=...,
                                    temperature=0,
                                    max_tokens=36)
print(response["choices"][0]["text"])
>> *)
Definition cell3 : M unit :=
  r ← Completion_create "text-davinci-002" prompt_cell3 0 36;
  assign_response r;;
  print_first_text.

Definition cell4 : M unit :=
  r ← Completion_create "text-davinci-002" prompt_cell4 0 36;
  assign_response r;;
  print_first_text.

Definition cell5 : M unit :=
  r ← Completion_create "text-davinci-002" prompt_cell5 0 36;
  assign_response r;;
  print_first_text.

Definition cell6 : M unit :=
  r ← Completion_create "text-davinci-002" prompt_cell6 0 36;
  assign_response r;;
  print_first_text.

Definition cell7 : M unit :=
  r ← Completion_create "text-davinci-002" prompt_cell7 0 36;
  assign_response r;;
  print_first_text.

Definition cell8 : M unit :=
  r ← Completion_create "text-davinci-002" prompt_cell8 0 36;
  assign_response r;;
  print_first_text.

Definition cell9 : M unit :=
  r ← Completion_create "text-davinci-002" prompt_cell9 0 36;
  assign_response r;;
  print_first_text.

(** The cells that talk to the endpoint, and the whole notebook in order. *)
Definition completion_cells : list (M unit) :=
  [cell_smoke; cell3; cell4; cell5; cell6; cell7; cell8; cell9].

Definition few_shot_prompts : list string :=
  [prompt_cell4; prompt_cell5; prompt_cell6; prompt_cell7; prompt_cell8; prompt_cell9].

(** Running cells top to bottom ("Run All"): the first exception stops the
    run. *)
Fixpoint run_cells (cs : list (M unit)) : M unit :=
  match cs with
  | [] => mret tt
  | c :: cs' => c;; run_cells cs'
  end.

Definition notebook : M unit := run_cells (cell_setup :: completion_cells).

(** ** The Prompt Builder of the specification

    The notebook has no rendering function: its prompts are the literals
    above.  The specification describes them as the output of a Prompt
    Builder taking an instruction, a labelling mode, example pairs and a
    target series.  [render_prompt] is that builder, written after the
    template the six few-shot literals share; it is compared with each of
    them in [few_shot_literals_rendered]. *)

Inductive LabelMode : Type := RawNumbers | DayLetters.

(** One value per day of a calendar week. *)
Record Series : Type := mkSeries { mon : Z; tue : Z; wed : Z; thu : Z; fri : Z; sat : Z; sun : Z }.

Definition values (s : Series) : list Z :=
  [mon s; tue s; wed s; thu s; fri s; sat s; sun s].

Definition day_letters : list string := ["M"; "T"; "W"; "T"; "F"; "S"; "S"].

Record ExamplePair : Type := mkExample { ex_series : Series; ex_trend : string }.

(** [sep.join(ls)] *)
Fixpoint join (sep : string) (ls : list string) : string :=
  match ls with
  | [] => ""
  | [l] => l
  | l :: ls' => l +:+ sep +:+ join sep ls'
  end.

Definition render_series (mode : LabelMode) (s : Series) : string :=
  match mode with
  | RawNumbers => join ", " (pretty <$> values s)
  | DayLetters =>
      join ", " (zip_with (λ d x, d +:+ ": " +:+ pretty x) day_letters (values s))
  end.

Definition render_example (mode : LabelMode) (e : ExamplePair) : list string :=
  ["Numbers: " +:+ render_series mode (ex_series e); "Trend: " +:+ ex_trend e; ""].

Definition render_prompt (instruction : string) (mode : LabelMode)
    (examples : list ExamplePair) (target : Series) : string :=
  unlines ([instruction; ""]
           ++ List.concat (render_example mode <$> examples)
           ++ ["Numbers: " +:+ render_series mode target; "Trend: "]).

(** A trend cell whose prompt comes out of the builder. *)
Definition few_shot_cell (instruction : string) (mode : LabelMode)
    (examples : list ExamplePair) (target : Series) : M unit :=
  r ← Completion_create "text-davinci-002"
        (render_prompt instruction mode examples target) 0 36;
  assign_response r;;
  print_first_text.

(** The series and descriptions the notebook uses. *)
Definition instruction_list : string :=
  "Summarize the trend of the list of numbers in one sentence".
Definition instruction_daily : string :=
  "Summarize the trend of the daily list of numbers in one sentence".

Definition series_increase : Series := mkSeries 132 329 583 743 966 1123 1298.
Definition series_fluctuate : Series := mkSeries 300 323 293 313 341 301 329.
Definition series_decrease : Series := mkSeries 99 97 96 90 87 83 82.
Definition series_small_outlier : Series := mkSeries 7 8 11 9 218 8 8.
Definition series_outlier : Series := mkSeries 55 54 57 5643 56 55 54.
Definition series_dip : Series := mkSeries 37465 52374 39809 30885 44325 230 223.

Definition ex_increase : ExamplePair :=
  mkExample series_increase
    "The numbers increase steadily from just over 100 to almost 1300.".
Definition ex_increase_days : ExamplePair :=
  mkExample series_increase
    "The numbers increase steadily from just over 100 on Monday to almost 1300 on Sunday.".
Definition ex_fluctuate : ExamplePair :=
  mkExample series_fluctuate "The numbers fluctuate between 293 and 341.".
Definition ex_fluctuate_week : ExamplePair :=
  mkExample series_fluctuate "The numbers fluctuate between 293 and 341 all week.".
Definition ex_small_outlier : ExamplePair :=
  mkExample series_small_outlier
    "The numbers fluctuate between 7 and 11 all week, wih one outlier at 218 on Friday.".

(** The three examples of cells 7, 8 and 9. *)
Definition three_examples : list ExamplePair :=
  [ex_increase_days; ex_fluctuate_week; ex_small_outlier].

(** *** Reading a rendered prompt back *)

(** The lines of a prompt that carry a series. *)
Definition numbers_lines (p : string) : list string :=
  List.filter (String.prefix "Numbers: ") (lines p).

(** The comma-separated fields of such a line, each cut at its [": "]:
    [["M"; "55"]] for a labelled value, [["55"]] for a bare one. *)
Definition fields (line : string) : list (list string) :=
  split_on ": " <$>
    split_on ", " (substring 9 (String.length line - 9) line).

(** ** Responses *)

(** The stub response of the end-to-end scenario. *)
Definition stub_response : pyval :=
  PDict {[ "choices" :=
    PList [PDict {[ "text" := PStr (nl +:+ nl +:+ "This is a test");
                    "finish_reason" := PStr "length" ]}] ]}.

(** The response the notebook recorded for cell 2. *)
Definition recorded_candidate : pyval :=
  PDict {[ "finish_reason" := PStr "length";
           "index" := PInt 0;
           "logprobs" := PNone;
           "text" := PStr (nl +:+ nl +:+ "This is a test") ]}.

Definition recorded_fields : gmap string pyval :=
  {[ "choices" := PList [recorded_candidate];
     "created" := PInt 1648109397;
     "id" := PStr "cmpl-4pCpZBRGMXui3G1jJKJRo62DsOK2y";
     "model" := PStr "text-davinci:002";
     "object" := PStr "text_completion" ]}.

Definition recorded_response : pyval := PDict recorded_fields.

(** A response with no candidate at all. *)
Definition empty_response : pyval :=
  PDict {[ "choices" := PList [];
           "object" := PStr "text_completion" ]}.

(** A world whose endpoint answers every request with [r], or raises [e]. *)
Definition world_answering (env : gmap string string) (r : pyval) : World :=
  mkWorld env (λ _ _ _, Ok r) PNone None [].

Definition world_failing (env : gmap string string) (e : PyExn) : World :=
  mkWorld env (λ _ _ _, Raise e) PNone None [].

(** The events a statement adds to the trace. *)
Definition emitted {A : Type} (m : M A) (w : World) : list Event :=
  drop (List.length (w_trace w)) (w_trace (m w).2).

Definition requests (evs : list Event) : list Request :=
  omap (λ ev, match ev with ECreate r => Some r | _ => None end) evs.

Definition prints (evs : list Event) : list pyval :=
  omap (λ ev, match ev with EPrint v => Some v | _ => None end) evs.

Definition getenvs (evs : list Event) : list string :=
  omap (λ ev, match ev with EGetenv n => Some n | _ => None end) evs.

(** The requests the notebook makes when nothing fails, in order. *)
Definition smoke_request : Request :=
  mkRequest "text-davinci-002" "Say this is a test" 0 6.

Definition trend_request (p : string) : Request :=
  mkRequest "text-davinci-002" p 0 36.

Definition notebook_requests : list Request :=
  smoke_request :: (trend_request <$> prompt_cell3 :: few_shot_prompts).

(** The end-to-end scenario of the specification: the request of cell 2
    followed by the print statement of cells 3 to 9. *)
Definition scenario_end_to_end : M unit :=
  r ← Completion_create "text-davinci-002" "Say this is a test" 0 6;
  assign_response r;;
  print_first_text.

(** A client that refuses to call out without a credential, as the client
    library does, and otherwise answers with the stub response. *)
Definition AuthenticationError : PyExn :=
  mkExn "AuthenticationError" "No API key provided.".

Definition world_requiring_key (env : gmap string string) : World :=
  mkWorld env
    (λ key _ _, match key with
                | PStr _ => Ok stub_response
                | _ => Raise AuthenticationError
                end)
    PNone None [].

(** What a cell "call the endpoint, then print [show response]" does in a
    world: the three ways it can end.  [show] is [extract_text] for cells 3
    to 9 and the identity for cell 2, which prints the whole response. *)
Inductive SingleShot (show : pyval → PyResult pyval) (req : Request)
    (w : World) (c : M unit) : Prop :=
  | shot_call_failed (e : PyExn) :
      w_endpoint w (w_api_key w) (w_trace w) req = Raise e →
      (c w).1 = Raise e →
      w_trace (c w).2 = w_trace w ++ [ECreate req] →
      SingleShot show req w c
  | shot_show_failed (r : pyval) (e : PyExn) :
      w_endpoint w (w_api_key w) (w_trace w) req = Ok r →
      show r = Raise e →
      (c w).1 = Raise e →
      w_trace (c w).2 = w_trace w ++ [ECreate req] →
      SingleShot show req w c
  | shot_printed (r t : pyval) :
      w_endpoint w (w_api_key w) (w_trace w) req = Ok r →
      show r = Ok t →
      (c w).1 = Ok tt →
      w_trace (c w).2 = w_trace w ++ [ECreate req; EPrint t] →
      SingleShot show req w c.

(** The completion cells with what each one sends and what it prints. *)
Definition cell_table : list ((pyval → PyResult pyval) * Request * M unit) :=
  [ (Ok, smoke_request, cell_smoke);
    (extract_text, trend_request prompt_cell3, cell3);
    (extract_text, trend_request prompt_cell4, cell4);
    (extract_text, trend_request prompt_cell5, cell5);
    (extract_text, trend_request prompt_cell6, cell6);
    (extract_text, trend_request prompt_cell7, cell7);
    (extract_text, trend_request prompt_cell8, cell8);
    (extract_text, trend_request prompt_cell9, cell9) ].

Definition world_without_key : World := world_requiring_key ∅.

(** The trace of completed exchanges: each request followed by the print of
    what was shown of its response. *)
Definition exchanges (reqs : list Request) (ts : list pyval) : list Event :=
  List.concat (zip_with (λ r t, [ECreate r; EPrint t]) reqs ts).

(** What a cell "call the endpoint with [req], bind the answer to
    [response], print [show response]" leaves behind, written out as one
    case analysis on the answer. *)
Definition cell_result (show : pyval → PyResult pyval) (req : Request)
    (w : World) : PyResult unit * World :=
  match w_endpoint w (w_api_key w) (w_trace w) req with
  | Raise e => (Raise e, emit (ECreate req) w)
  | Ok r =>
      let w1 := mkWorld (w_environ w) (w_endpoint w) (w_api_key w) (Some r)
                        (w_trace w ++ [ECreate req]) in
      match show r with
      | Raise e => (Raise e, w1)
      | Ok t => (Ok tt, emit (EPrint t) w1)
      end
  end.

(** How the values printed in a run of cells, and the way the run ends, come
    from the endpoint.  [Answered key endpoint tr cells ts res]: started with
    trace [tr] and credential [key], the cells (each given by what it shows
    and what it requests) print [ts] and end in [res].  The endpoint is asked
    with the trace as it stands at the time of the call. *)
Inductive Answered (key : pyval)
    (endpoint : pyval → list Event → Request → PyResult pyval) :
    list Event → list ((pyval → PyResult pyval) * Request) →
    list pyval → PyResult unit → Prop :=
  | answered_done (tr : list Event) :
      Answered key endpoint tr [] [] (Ok tt)
  | answered_shown (tr : list Event) show req rest (r t : pyval) ts res :
      endpoint key tr req = Ok r →
      show r = Ok t →
      Answered key endpoint (tr ++ [ECreate req; EPrint t]) rest ts res →
      Answered key endpoint tr ((show, req) :: rest) (t :: ts) res
  | answered_call_raised (tr : list Event) show req rest (e : PyExn) :
      endpoint key tr req = Raise e →
      Answered key endpoint tr ((show, req) :: rest) [] (Raise e)
  | answered_show_raised (tr : list Event) show req rest (r : pyval) (e : PyExn) :
      endpoint key tr req = Ok r →
      show r = Raise e →
      Answered key endpoint tr ((show, req) :: rest) [] (Raise e).

(** * Properties *)

(** ** Strings *)

Lemma append_assoc_s (a b c : string) : (a +:+ b) +:+ c = a +:+ (b +:+ c).
Proof. induction a as [|x a IH]; simpl; [done | by rewrite IH]. Qed.

Lemma append_nil_r_s (a : string) : a +:+ "" = a.
Proof. induction a as [|x a IH]; simpl; [done | by rewrite IH]. Qed.

Lemma ends_with_app (pre suf : string) : ends_with suf (pre +:+ suf) = true.
Proof.
  induction pre as [|x pre IH]; simpl.
  - destruct suf; simpl; rewrite ?String.eqb_refl, ?Ascii.eqb_refl; done.
  - rewrite IH. apply orb_true_r.
Qed.

Lemma unlines_app (l1 l2 : list string) :
  unlines (l1 ++ l2) = unlines l1 +:+ unlines l2.
Proof.
  induction l1 as [|x l1 IH]; simpl; [done|].
  by rewrite IH, !append_assoc_s.
Qed.

(** ** The monad *)

Lemma emitted_app {A : Type} (m : M A) (w : World) (evs : list Event) :
  w_trace (m w).2 = w_trace w ++ evs → emitted m w = evs.
Proof. intros H. unfold emitted. rewrite H. apply drop_app_length. Qed.

Lemma requests_app (l1 l2 : list Event) :
  requests (l1 ++ l2) = requests l1 ++ requests l2.
Proof. apply omap_app. Qed.

Lemma prints_app (l1 l2 : list Event) : prints (l1 ++ l2) = prints l1 ++ prints l2.
Proof. apply omap_app. Qed.

Lemma getenvs_app (l1 l2 : list Event) :
  getenvs (l1 ++ l2) = getenvs l1 ++ getenvs l2.
Proof. apply omap_app. Qed.

Lemma call_then_print_first_text (eng p : string) (t m : Z) (w : World) :
  SingleShot extract_text (mkRequest eng p t m) w
    (r ← Completion_create eng p t m; assign_response r;; print_first_text).
Proof.
  destruct (w_endpoint w (w_api_key w) (w_trace w) (mkRequest eng p t m))
    as [r|e] eqn:Hcall.
  - destruct (extract_text r) as [txt|e] eqn:Hext.
    + eapply shot_printed; [exact Hcall | exact Hext | |];
        unfold mbind, M_bind, Completion_create, assign_response,
          print_first_text, read_response, lift, print, emit; simpl;
        rewrite Hcall; simpl; unfold mbind, M_bind; simpl; rewrite Hext; simpl;
        [done | by rewrite <- app_assoc].
    + eapply shot_show_failed; [exact Hcall | exact Hext | |];
        unfold mbind, M_bind, Completion_create, assign_response,
          print_first_text, read_response, lift, print, emit; simpl;
        rewrite Hcall; simpl; unfold mbind, M_bind; simpl; rewrite Hext; done.
  - eapply shot_call_failed; [exact Hcall | |];
      unfold mbind, M_bind, Completion_create; simpl; rewrite Hcall; done.
Qed.

Lemma cell_smoke_single_shot (w : World) : SingleShot Ok smoke_request w cell_smoke.
Proof.
  destruct (w_endpoint w (w_api_key w) (w_trace w) smoke_request) as [r|e] eqn:Hcall.
  - eapply (shot_printed _ _ _ _ r r); [exact Hcall | done | |];
      unfold cell_smoke, mbind, M_bind, Completion_create, assign_response,
        read_response, print, emit; simpl;
      fold smoke_request; rewrite Hcall; simpl; [done | by rewrite <- app_assoc].
  - eapply shot_call_failed; [exact Hcall | |];
      unfold cell_smoke, mbind, M_bind, Completion_create; simpl;
      fold smoke_request; rewrite Hcall; done.
Qed.

Lemma cell_table_single_shot :
  Forall (λ '(show, req, c), ∀ w : World, SingleShot show req w c) cell_table.
Proof.
  unfold cell_table.
  repeat (apply Forall_cons; split;
          [first [ exact cell_smoke_single_shot
                 | intros w; apply call_then_print_first_text ] |]).
  apply Forall_nil_2.
Qed.

Lemma cell_table_cells : cell_table.*2 = completion_cells.
Proof. reflexivity. Qed.

Lemma cell_table_requests : cell_table.*1.*2 = notebook_requests.
Proof. reflexivity. Qed.

(** What a single-shot cell adds to the trace, read off [SingleShot]. *)
Lemma single_shot_trace show req w c :
  SingleShot show req w c →
  ∃ evs, w_trace (c w).2 = w_trace w ++ evs
         ∧ requests evs = [req] ∧ getenvs evs = []
         ∧ (∀ e, (c w).1 = Raise e → prints evs = []).
Proof.
  intros [e Hcall Hres Htr | r e Hcall Hshow Hres Htr | r t Hcall Hshow Hres Htr];
    eexists; (split; [exact Htr|]); repeat split; try done.
  intros e He. rewrite Hres in He. discriminate.
Qed.

Lemma run_cells_cons (c : M unit) (cs : list (M unit)) (w : World) :
  run_cells (c :: cs) w =
  match c w with
  | (Ok _, w') => run_cells cs w'
  | (Raise e, w') => (Raise e, w')
  end.
Proof. reflexivity. Qed.

(** Running a list of single-shot cells sends a prefix of their requests,
    all of them when no cell fails, and never reads the environment. *)
Lemma run_cells_trace (tbl : list ((pyval → PyResult pyval) * Request * M unit)) :
  Forall (λ '(show, req, c), ∀ w : World, SingleShot show req w c) tbl →
  ∀ w : World,
    ∃ evs, w_trace (run_cells tbl.*2 w).2 = w_trace w ++ evs
           ∧ requests evs `prefix_of` tbl.*1.*2
           ∧ getenvs evs = []
           ∧ ((run_cells tbl.*2 w).1 = Ok tt → requests evs = tbl.*1.*2)
           ∧ (tbl = [] ∨ requests evs ≠ []).
Proof.
  induction 1 as [|[[show req] c] tbl Hc _ IH]; intros w.
  - exists []. simpl. rewrite app_nil_r. split_and!; auto using prefix_nil.
  - destruct (single_shot_trace _ _ _ _ (Hc w)) as (evs & Htr & Hreq & Henv & _).
    rewrite !fmap_cons, run_cells_cons. cbn [fst snd].
    destruct (c w) as [[[]|e] w1] eqn:Hcw; cbn [fst snd] in *.
    + destruct (IH w1) as (evs' & Htr' & Hpre & Henv' & Hall & _).
      exists (evs ++ evs'). rewrite Htr', Htr, app_assoc.
      rewrite requests_app, getenvs_app, Hreq, Henv, Henv'.
      split_and!; [done | by apply (prefix_cons req) | done | | by right].
      intros Hok. by rewrite Hall.
    + exists evs. rewrite Hreq, Henv. split_and!; try done.
      * apply (prefix_cons req), prefix_nil.
      * by right.
Qed.

(** ** The Result Extractor *)

Lemma extract_text_first (d : gmap string pyval) (first t : pyval) (others : list pyval) :
  d !! "choices" = Some (PList (first :: others)) →
  getitem_str first "text" = Ok t →
  extract_text (PDict d) = Ok t.
Proof.
  intros Hd Ht. unfold extract_text. simpl. rewrite Hd. simpl. exact Ht.
Qed.

Lemma extract_text_no_candidate (d : gmap string pyval) :
  d !! "choices" = Some (PList []) →
  extract_text (PDict d) = Raise (IndexError "list").
Proof. intros Hd. unfold extract_text. simpl. by rewrite Hd. Qed.

(** A trend-style cell run against an endpoint that answers [r]. *)
Lemma single_shot_answered show req c env r :
  SingleShot show req (world_answering env r) c →
  match show r with
  | Ok t =>
      (c (world_answering env r)).1 = Ok tt
      ∧ emitted c (world_answering env r) = [ECreate req; EPrint t]
  | Raise e =>
      (c (world_answering env r)).1 = Raise e
      ∧ emitted c (world_answering env r) = [ECreate req]
  end.
Proof.
  intros [e Hcall Hres Htr | r' e Hcall Hshow Hres Htr | r' t Hcall Hshow Hres Htr];
    simpl in Hcall; simplify_eq; rewrite Hshow; split; try done;
    by apply emitted_app.
Qed.

(** C1, the claim as stated, fails: on the stub response of the end-to-end
    scenario the extracted text is not "This is a test".  The two leading
    newlines are still there, in the value of the expression and in what the
    scenario prints; "This is a test" is what stripping it would give. *)
Lemma extractor_trims_refuted :
  strip (nl +:+ nl +:+ "This is a test") = "This is a test"
  ∧ extract_text stub_response ≠ Ok (PStr "This is a test")
  ∧ prints (emitted scenario_end_to_end (world_answering ∅ stub_response))
    ≠ [PStr "This is a test"].
Proof. split_and!; [by vm_compute | by vm_compute | by vm_compute]. Qed.

(** C1, amended: the Result Extractor returns the first candidate's text as
    it is, without trimming.  For every string [t], whatever whitespace it
    starts or ends with, a response whose first candidate has text [t]
    yields [t] itself: as the value of the expression, as what each of the
    cells 3 to 9 prints, and as what the end-to-end scenario prints.  On the
    stub response the extracted text is "\n\nThis is a test", and the
    end-to-end scenario (request "Say this is a test", temperature 0,
    max_tokens 6, against an endpoint answering with the stub) sends that one
    request and prints that text. *)
Theorem extractor_returns_text_untrimmed :
  (∀ (t : string) (candidate rest : gmap string pyval) (others : list pyval)
     (env : gmap string string),
     let r := PDict (<["choices" :=
                         PList (PDict (<["text" := PStr t]> candidate) :: others)]>
                       rest) in
     extract_text r = Ok (PStr t)
     ∧ Forall (λ c, (c (world_answering env r)).1 = Ok tt
                    ∧ prints (emitted c (world_answering env r)) = [PStr t])
         [cell3; cell4; cell5; cell6; cell7; cell8; cell9]
     ∧ (scenario_end_to_end (world_answering env r)).1 = Ok tt
     ∧ emitted scenario_end_to_end (world_answering env r)
       = [ECreate smoke_request; EPrint (PStr t)])
  ∧ extract_text stub_response = Ok (PStr (nl +:+ nl +:+ "This is a test"))
  ∧ ∀ env : gmap string string,
      (scenario_end_to_end (world_answering env stub_response)).1 = Ok tt
      ∧ emitted scenario_end_to_end (world_answering env stub_response)
        = [ECreate smoke_request; EPrint (PStr (nl +:+ nl +:+ "This is a test"))].
Proof.
  assert (∀ (env : gmap string string) (r t : pyval) (p : string) (m : Z),
            extract_text r = Ok t →
            ((x ← Completion_create "text-davinci-002" p 0 m;
              assign_response x;; print_first_text) (world_answering env r)).1 = Ok tt
            ∧ emitted (x ← Completion_create "text-davinci-002" p 0 m;
                       assign_response x;; print_first_text) (world_answering env r)
              = [ECreate (mkRequest "text-davinci-002" p 0 m); EPrint t]) as Hcell.
  { intros env r t p m Hext.
    pose proof (single_shot_answered _ _ _ env r
      (call_then_print_first_text "text-davinci-002" p 0 m _)) as H.
    by rewrite Hext in H. }
  split_and!.
  - intros t candidate rest others env r.
    assert (extract_text r = Ok (PStr t)) as Hext.
    { eapply extract_text_first; [apply lookup_insert_eq|].
      simpl. by rewrite lookup_insert_eq. }
    split_and!; [exact Hext | | apply (Hcell env r _ _ 6 Hext)..].
    repeat (apply Forall_cons; split;
            [match goal with
             | |- (?c _).1 = _ ∧ _ =>
                 unfold c;
                 match goal with
                 | |- context [Completion_create _ ?p _ _] =>
                     destruct (Hcell env r _ p 36 Hext) as [H1 H2];
                     split; [exact H1 | by rewrite H2]
                 end
             end |]).
    apply Forall_nil_2.
  - by vm_compute.
  - intros env. apply (Hcell env stub_response _ _ 6). by vm_compute.
Qed.

(** C2: for every response whose candidate list has a first element, the
    value of [response["choices"][0]["text"]] is the text field of that
    first candidate, whatever the other candidates are: replacing them by
    any others does not change it. *)
Theorem extractor_returns_first_candidate_text :
  ∀ (d : gmap string pyval) (first t : pyval) (others others' : list pyval),
    d !! "choices" = Some (PList (first :: others)) →
    getitem_str first "text" = Ok t →
    extract_text (PDict d) = Ok t
    ∧ extract_text (PDict (<["choices" := PList (first :: others')]> d)) = Ok t.
Proof.
  intros d first t others others' Hd Ht. split.
  - by eapply extract_text_first.
  - eapply extract_text_first; [apply lookup_insert_eq | exact Ht].
Qed.

(** C3, the claim as stated, fails: on a response without candidates the
    exception raised is not of a class EmptyResponse. *)
Lemma empty_response_error_is_not_EmptyResponse :
  ¬ ∃ e : PyExn, exn_class e = "EmptyResponse"
                 ∧ extract_text empty_response = Raise e.
Proof.
  intros (e & Hclass & Hraise).
  assert (extract_text empty_response = Raise (IndexError "list")) as H
    by (by vm_compute).
  rewrite H in Hraise. injection Hraise as <-. discriminate Hclass.
Qed.

(** C3, amended: on a response whose candidate list is empty, the extraction
    raises Python's IndexError ("list index out of range"), the exception
    of the list subscript [[0]]; a cell given such a response ends with that
    exception and prints nothing. *)
Theorem empty_candidates_raise_IndexError :
  ∀ (rest : gmap string pyval) (env : gmap string string),
    let r := PDict (<["choices" := PList []]> rest) in
    extract_text r = Raise (mkExn "IndexError" "list index out of range")
    ∧ (cell3 (world_answering env r)).1
      = Raise (mkExn "IndexError" "list index out of range")
    ∧ prints (emitted cell3 (world_answering env r)) = [].
Proof.
  intros rest env r.
  assert (extract_text r = Raise (IndexError "list")) as Hext
    by apply extract_text_no_candidate, lookup_insert_eq.
  split; [exact Hext|].
  pose proof (single_shot_answered _ _ _ env r
    (call_then_print_first_text "text-davinci-002" prompt_cell3 0 36 _)) as H.
  rewrite Hext in H. destruct H as [Hres Hev].
  split; [exact Hres|]. unfold cell3. by rewrite Hev.
Qed.

Lemma extractor_returns_first_candidate_text_witness :
  (recorded_fields !! "choices" = Some (PList [recorded_candidate])
   ∧ getitem_str recorded_candidate "text" = Ok (PStr (nl +:+ nl +:+ "This is a test")))
  ∧ extract_text (PDict recorded_fields) = Ok (PStr (nl +:+ nl +:+ "This is a test"))
  ∧ extract_text
      (PDict (<["choices" := PList [recorded_candidate; PDict {[ "text" := PStr "other" ]}]]>
                recorded_fields))
    = Ok (PStr (nl +:+ nl +:+ "This is a test")).
Proof.
  split; [split; vm_compute; reflexivity |].
  apply (extractor_returns_first_candidate_text recorded_fields recorded_candidate
           (PStr (nl +:+ nl +:+ "This is a test")) []
           [PDict {[ "text" := PStr "other" ]}]);
    vm_compute; reflexivity.
Defined.

(** ** The prompts *)

(** Each few-shot literal of the notebook is what the builder renders from
    its instruction, labelling mode, examples and target series. *)
Lemma few_shot_literals_rendered :
  prompt_cell4 = render_prompt instruction_list RawNumbers
                   [ex_increase; ex_fluctuate] series_decrease
  ∧ prompt_cell5 = render_prompt instruction_list RawNumbers
                     [ex_increase; ex_fluctuate] series_outlier
  ∧ prompt_cell6 = render_prompt instruction_list RawNumbers
                     [ex_increase_days; ex_fluctuate] series_outlier
  ∧ prompt_cell7 = render_prompt instruction_list RawNumbers
                     three_examples series_outlier
  ∧ prompt_cell8 = render_prompt instruction_daily DayLetters
                     three_examples series_outlier
  ∧ prompt_cell9 = render_prompt instruction_daily DayLetters
                     three_examples series_dip.
Proof. split_and!; vm_compute; reflexivity. Qed.

Lemma render_prompt_suffix instruction mode examples target :
  ∃ pre : string,
    render_prompt instruction mode examples target = pre +:+ ("Trend: " +:+ nl).
Proof.
  unfold render_prompt. rewrite !app_assoc, unlines_app.
  exists (unlines (([instruction; ""] ++ List.concat (render_example mode <$> examples)))
          +:+ (("Numbers: " +:+ render_series mode target) +:+ nl)).
  rewrite append_assoc_s. f_equal.
  cbn [unlines]. rewrite append_nil_r_s. symmetry. apply append_assoc_s.
Qed.

(** C4, the claim as stated, fails: the zero-example prompt (cell 3) holds the
    series but does not end with the label "Trend:". *)
Lemma zero_shot_prompt_ends_with_trend_refuted :
  ¬ (contains "132, 329, 583, 743, 966, 1123, 1298" prompt_cell3 = true
     ∧ ends_with "Trend:" prompt_cell3 = true).
Proof. intros [_ H]. vm_compute in H. discriminate H. Qed.

(** C4, amended: the prompt cell 3 sends, the one with zero examples for the
    series 132 ... 1298, contains the literal "132, 329, 583, 743, 966,
    1123, 1298" and ends with " in one sentence"; the label "Trend:" occurs
    nowhere in it. *)
Theorem zero_shot_prompt_shape :
  (∀ w : World, prompt <$> requests (emitted cell3 w) = [prompt_cell3])
  ∧ contains "132, 329, 583, 743, 966, 1123, 1298" prompt_cell3 = true
  ∧ ends_with " in one sentence" prompt_cell3 = true
  ∧ contains "Trend:" prompt_cell3 = false.
Proof.
  split; [| split_and!; vm_compute; reflexivity].
  intros w.
  destruct (single_shot_trace _ _ _ _
              (call_then_print_first_text "text-davinci-002" prompt_cell3 0 36 w))
    as (evs & Htr & Hreq & _).
  unfold cell3. rewrite (emitted_app _ _ _ Htr), Hreq. reflexivity.
Qed.

(** C5: rendering is deterministic.  For every instruction, labelling mode,
    list of example pairs and target series, the prompt a few-shot cell
    sends is the same string in any two worlds it is run in (whatever the
    environment, the credential, the endpoint's answers and the trace so
    far): it is the rendering of those four inputs and of nothing else.
    The cells of the notebook themselves, whose prompts are literals, each
    send the same request in any two worlds. *)
Theorem prompt_rendering_deterministic :
  (∀ (instruction : string) (mode : LabelMode) (examples : list ExamplePair)
     (target : Series) (w1 w2 : World),
     prompt <$> requests (emitted (few_shot_cell instruction mode examples target) w1)
     = prompt <$> requests (emitted (few_shot_cell instruction mode examples target) w2)
     ∧ prompt <$> requests (emitted (few_shot_cell instruction mode examples target) w1)
       = [render_prompt instruction mode examples target])
  ∧ Forall (λ '(_, req, c), ∀ w1 w2 : World,
              requests (emitted c w1) = [req] ∧ requests (emitted c w2) = [req])
      cell_table.
Proof.
  split.
  - intros instruction mode examples target w1 w2.
    assert (∀ w, prompt <$> requests
                   (emitted (few_shot_cell instruction mode examples target) w)
                 = [render_prompt instruction mode examples target]) as H.
    { intros w.
      destruct (single_shot_trace _ _ _ _
                  (call_then_print_first_text "text-davinci-002"
                     (render_prompt instruction mode examples target) 0 36 w))
        as (evs & Htr & Hreq & _).
      unfold few_shot_cell. rewrite (emitted_app _ _ _ Htr), Hreq. reflexivity. }
    by rewrite !H.
  - eapply Forall_impl; [exact cell_table_single_shot|].
    intros [[show req] c] H w1 w2.
    split; [destruct (single_shot_trace _ _ _ _ (H w1)) as (evs & Htr & Hreq & _)
           | destruct (single_shot_trace _ _ _ _ (H w2)) as (evs & Htr & Hreq & _)];
      by rewrite (emitted_app _ _ _ Htr).
Qed.

(** C6: the prompt of cell 8 is the rendering, with day letters, of the
    three-example set and the target series 55, 54, 57, 5643, 56, 55, 54.
    Cut at its commas, its target line has seven fields, and each is a day
    letter, a colon and a space, then the number of that day: M, T, W, T, F,
    S, S before 55, 54, 57, 5643, 56, 55, 54, in that order.  The three
    example lines carry the same letters in the same order. *)
Theorem day_letters_precede_numbers :
  prompt_cell8
  = render_prompt instruction_daily DayLetters three_examples series_outlier
  ∧ fields <$> last (numbers_lines prompt_cell8)
    = Some [["M"; "55"]; ["T"; "54"]; ["W"; "57"]; ["T"; "5643"];
            ["F"; "56"]; ["S"; "55"]; ["S"; "54"]]
  ∧ List.length (numbers_lines prompt_cell8) = 4%nat
  ∧ Forall (λ l, List.map (List.hd "") (fields l) = day_letters)
      (numbers_lines prompt_cell8).
Proof.
  split_and!; [by vm_compute | by vm_compute | by vm_compute |].
  assert (numbers_lines prompt_cell8
          = [ "Numbers: M: 132, T: 329, W: 583, T: 743, F: 966, S: 1123, S: 1298";
              "Numbers: M: 300, T: 323, W: 293, T: 313, F: 341, S: 301, S: 329";
              "Numbers: M: 7, T: 8, W: 11, T: 9, F: 218, S: 8, S: 8";
              "Numbers: M: 55, T: 54, W: 57, T: 5643, F: 56, S: 55, S: 54" ]) as ->
    by (by vm_compute).
  repeat (apply Forall_cons; split; [by vm_compute|]).
  apply Forall_nil_2.
Qed.

(** C10: each of the six few-shot prompts of the notebook (cells 4 to 9) ends
    with "Trend: " and one newline: the colon is followed by a space (the
    prompt does not end with "Trend:" and a newline) and the newline is
    single.  The same holds of whatever the builder renders. *)
Theorem few_shot_prompts_end_with_trend_space_newline :
  Forall (λ p, ends_with ("Trend: " +:+ nl) p = true
               ∧ ends_with ("Trend:" +:+ nl) p = false
               ∧ ends_with (nl +:+ nl) p = false) few_shot_prompts
  ∧ ∀ (instruction : string) (mode : LabelMode) (examples : list ExamplePair)
      (target : Series),
      ends_with ("Trend: " +:+ nl)
        (render_prompt instruction mode examples target) = true.
Proof.
  split.
  - unfold few_shot_prompts.
    repeat (apply Forall_cons; split; [split_and!; vm_compute; reflexivity|]).
    apply Forall_nil_2.
  - intros instruction mode examples target.
    destruct (render_prompt_suffix instruction mode examples target) as [pre ->].
    apply ends_with_app.
Qed.

(** ** The run of the notebook *)

Lemma cell_setup_runs (w : World) :
  cell_setup w
  = (Ok tt,
     mkWorld (w_environ w) (w_endpoint w)
       (match w_environ w !! "OPENAI_API_KEY" with
        | Some v => PStr v
        | None => PNone
        end)
       (w_response w) (w_trace w ++ [EGetenv "OPENAI_API_KEY"])).
Proof. reflexivity. Qed.

(** The trace of a whole run: the one environment read, then the requests
    of the completion cells up to the first failure, the smoke test always
    among them. *)
Lemma notebook_trace (w : World) :
  ∃ (evs : list Event) (rest : list Request),
    emitted notebook w = EGetenv "OPENAI_API_KEY" :: evs
    ∧ getenvs evs = []
    ∧ requests evs = smoke_request :: rest
    ∧ rest `prefix_of` (trend_request <$> prompt_cell3 :: few_shot_prompts)
    ∧ ((notebook w).1 = Ok tt → requests evs = notebook_requests).
Proof.
  unfold notebook. rewrite <- cell_table_cells.
  pose proof (run_cells_cons cell_setup cell_table.*2 w) as Hrun.
  rewrite cell_setup_runs in Hrun.
  destruct (run_cells_trace cell_table cell_table_single_shot
              (cell_setup w).2) as (evs & Htr & Hpre & Henv & Hall & Hne).
  rewrite cell_setup_runs in Htr, Hall. cbn [snd w_trace] in Htr, Hall.
  rewrite cell_table_requests in Hpre, Hall.
  destruct Hne as [Hnil | Hne]; [discriminate Hnil|].
  destruct (requests evs) as [|r rest] eqn:Hreq; [done|].
  unfold notebook_requests in Hpre.
  pose proof (prefix_cons_inv_1 _ _ _ _ Hpre) as ->.
  apply prefix_cons_inv_2 in Hpre.
  exists evs, rest. split_and!; try done.
  - apply emitted_app. rewrite Hrun, Htr, <- app_assoc. reflexivity.
  - rewrite Hrun, Hreq. exact Hall.
Qed.

(** C7, the claim as stated, fails: with no OPENAI_API_KEY in the environment
    the setup cell ends normally, leaving [openai.api_key] at [None]; with a
    client that refuses to work without a key, the failure comes out of the
    first completion call, in cell 2. *)
Lemma missing_credential_fatal_at_startup_refuted :
  w_environ world_without_key !! "OPENAI_API_KEY" = None
  ∧ (cell_setup world_without_key).1 = Ok tt
  ∧ w_api_key (cell_setup world_without_key).2 = PNone
  ∧ ¬ (∃ e : PyExn, (cell_setup world_without_key).1 = Raise e)
  ∧ (notebook world_without_key).1 = Raise AuthenticationError
  ∧ emitted notebook world_without_key
    = [EGetenv "OPENAI_API_KEY"; ECreate smoke_request].
Proof.
  split_and!; try (vm_compute; reflexivity).
  intros [e He]. vm_compute in He. discriminate He.
Qed.

(** C7, amended: the credential is read from the process environment exactly
    once, by the setup cell: in every world a run of the notebook reads
    OPENAI_API_KEY once, first of all, and reads nothing else.  The setup
    cell never fails: it stores the value found, or [None] when the variable
    is absent, in [openai.api_key]. *)
Theorem credential_read_once_absence_not_fatal :
  ∀ w : World,
    (cell_setup w).1 = Ok tt
    ∧ w_api_key (cell_setup w).2
      = match w_environ w !! "OPENAI_API_KEY" with
        | Some v => PStr v
        | None => PNone
        end
    ∧ emitted cell_setup w = [EGetenv "OPENAI_API_KEY"]
    ∧ getenvs (emitted notebook w) = ["OPENAI_API_KEY"]
    ∧ head (emitted notebook w) = Some (EGetenv "OPENAI_API_KEY").
Proof.
  intros w. rewrite cell_setup_runs. split_and!; try done.
  - apply emitted_app. by rewrite cell_setup_runs.
  - destruct (notebook_trace w) as (evs & rest & -> & Henv & _).
    cbn [getenvs omap list_omap]. fold (getenvs evs). by rewrite Henv.
  - by destruct (notebook_trace w) as (evs & rest & -> & _).
Qed.

(** The outcome of a single-shot cell, spelled out on the trace. *)
Lemma single_shot_outcome show req w c :
  SingleShot show req w c →
  requests (emitted c w) = [req]
  ∧ match w_endpoint w (w_api_key w) (w_trace w) req with
    | Raise e => (c w).1 = Raise e ∧ prints (emitted c w) = []
    | Ok r =>
        match show r with
        | Raise e => (c w).1 = Raise e ∧ prints (emitted c w) = []
        | Ok t => (c w).1 = Ok tt ∧ prints (emitted c w) = [t]
        end
    end.
Proof.
  intros [e Hcall Hres Htr | r e Hcall Hshow Hres Htr | r t Hcall Hshow Hres Htr];
    rewrite (emitted_app _ _ _ Htr), Hcall, ?Hshow; done.
Qed.

(** C8: each completion cell, run in any world, calls the endpoint exactly
    once.  An exception raised by the call (transport, authentication, rate
    limit: whatever the endpoint raises) is the outcome of the cell, and so
    is an exception raised while reading the response (a malformed
    response); in both cases nothing has been printed and no second call
    has been made.  Only when both succeed does the cell print, once. *)
Theorem single_shot_one_request_failures_propagate :
  Forall (λ '(show, req, c), ∀ w : World,
    requests (emitted c w) = [req]
    ∧ match w_endpoint w (w_api_key w) (w_trace w) req with
      | Raise e => (c w).1 = Raise e ∧ prints (emitted c w) = []
      | Ok r =>
          match show r with
          | Raise e => (c w).1 = Raise e ∧ prints (emitted c w) = []
          | Ok t => (c w).1 = Ok tt ∧ prints (emitted c w) = [t]
          end
      end) cell_table
  ∧ cell_table.*2 = completion_cells.
Proof.
  split; [|reflexivity].
  eapply Forall_impl; [exact cell_table_single_shot|].
  intros [[show req] c] H w. apply single_shot_outcome, H.
Qed.

(** C9: in every run of the notebook the first request is the smoke test,
    with model "text-davinci-002", temperature 0 and max_tokens 6, and every
    later request is a trend request, with the same model and temperature
    and max_tokens 36; a run in which no cell fails sends all eight. *)
Theorem requests_use_fixed_parameters :
  ∀ w : World,
    ∃ rest : list Request,
      requests (emitted notebook w)
      = mkRequest "text-davinci-002" "Say this is a test" 0 6 :: rest
      ∧ Forall (λ r, engine r = "text-davinci-002"
                     ∧ temperature r = 0
                     ∧ max_tokens r = 36
                     ∧ prompt r ∈ prompt_cell3 :: few_shot_prompts) rest
      ∧ ((notebook w).1 = Ok tt → List.length rest = 7%nat).
Proof.
  intros w.
  destruct (notebook_trace w) as (evs & rest & -> & _ & Hreq & Hpre & Hall).
  exists rest. split_and!.
  - cbn [requests omap list_omap]. fold (requests evs). exact Hreq.
  - destruct Hpre as [k Hk].
    assert (Forall (λ r, engine r = "text-davinci-002" ∧ temperature r = 0
                         ∧ max_tokens r = 36
                         ∧ prompt r ∈ prompt_cell3 :: few_shot_prompts)
              (trend_request <$> prompt_cell3 :: few_shot_prompts)) as HF.
    { apply Forall_fmap, Forall_forall. intros p Hp. simpl. done. }
    rewrite Hk in HF. by apply Forall_app in HF as [HF _].
  - intros Hok. specialize (Hall Hok). rewrite Hreq in Hall.
    unfold notebook_requests in Hall. by simplify_eq.
Qed.

(** Two runs of the notebook, in any two worlds, send requests drawn from
    the same fixed list, in the same order. *)
Lemma notebook_requests_world_independent (w1 w2 : World) :
  requests (emitted notebook w1) `prefix_of` notebook_requests
  ∧ requests (emitted notebook w2) `prefix_of` notebook_requests.
Proof.
  split.
  - destruct (notebook_trace w1) as (evs & rest & -> & _ & Hreq & Hpre & _).
    cbn [requests omap list_omap]. fold (requests evs). rewrite Hreq.
    by apply prefix_cons.
  - destruct (notebook_trace w2) as (evs & rest & -> & _ & Hreq & Hpre & _).
    cbn [requests omap list_omap]. fold (requests evs). rewrite Hreq.
    by apply prefix_cons.
Qed.

(** ** Further properties of the extraction expression *)

Lemma py_index_0 {A : Type} (l : list A) : py_index l 0 = head l.
Proof.
  unfold py_index. destruct l as [|x l]; [reflexivity|].
  cbn [Z.ltb Z.compare]. change (0 <=? 0) with true. cbn [andb].
  destruct (Z.ltb_spec 0 (Z.of_nat (List.length (x :: l)))) as [_|H];
    [reflexivity | simpl in H; lia].
Qed.

(** X1: [response["choices"][0]["text"]] has a value exactly when the response
    is a dictionary whose "choices" entry is a list starting with a
    dictionary that has a "text" entry, and the value is that entry. *)
Theorem extract_text_ok_iff (r t : pyval) :
  extract_text r = Ok t
  ↔ ∃ (d d0 : gmap string pyval) (others : list pyval),
      r = PDict d
      ∧ d !! "choices" = Some (PList (PDict d0 :: others))
      ∧ d0 !! "text" = Some t.
Proof.
  split.
  - unfold extract_text. destruct r as [| | | |d]; simpl; try discriminate.
    destruct (d !! "choices") as [c|] eqn:Hc; simpl; [|discriminate].
    destruct c as [| |s|l|d']; simpl; try discriminate.
    + rewrite py_index_0.
      destruct (head (list_ascii_of_string s)); simpl; discriminate.
    + rewrite py_index_0. destruct l as [|first others]; simpl; [discriminate|].
      destruct first as [| | | |d0]; simpl; try discriminate.
      destruct (d0 !! "text") as [x|] eqn:Hx; [|discriminate].
      intros [= ->]. by exists d, d0, others.
  - intros (d & d0 & others & -> & Hd & Ht).
    eapply extract_text_first; [exact Hd|]. simpl. by rewrite Ht.
Qed.

(** X2: the expression raises an IndexError exactly when the response is a
    dictionary whose "choices" entry is an empty sequence: the empty list,
    or, for a response that violates the schema, the empty string. *)
Theorem extract_text_IndexError_iff (r : pyval) :
  (∃ e : PyExn, extract_text r = Raise e ∧ exn_class e = "IndexError")
  ↔ ∃ d : gmap string pyval,
      r = PDict d
      ∧ (d !! "choices" = Some (PList []) ∨ d !! "choices" = Some (PStr "")).
Proof.
  split.
  - intros (e & He & Hclass). revert He. unfold extract_text.
    destruct r as [| | | |d]; simpl; try (intros [= <-]; discriminate Hclass).
    destruct (d !! "choices") as [c|] eqn:Hc; simpl;
      [|intros [= <-]; discriminate Hclass].
    destruct c as [| |s|l|d']; simpl; try (intros [= <-]; discriminate Hclass).
    + rewrite py_index_0. destruct s as [|a s]; simpl.
      * intros _. exists d. split; [done | by right].
      * intros [= <-]. discriminate Hclass.
    + rewrite py_index_0. destruct l as [|first others]; simpl.
      * intros _. exists d. split; [done | by left].
      * destruct first as [| | | |d0]; simpl;
          try (intros [= <-]; discriminate Hclass).
        destruct (d0 !! "text"); [discriminate|].
        intros [= <-]. discriminate Hclass.
  - intros (d & -> & [Hd | Hd]); unfold extract_text; simpl; rewrite Hd; simpl.
    + exists (IndexError "list"). done.
    + exists (IndexError "string"). done.
Qed.

(** X3: the expression raises a KeyError exactly in three cases, and the
    exception names the key that is missing: "choices" when the response
    has no such entry, "text" when the first candidate has no such entry,
    and 0 when "choices" is itself a dictionary. *)
Theorem extract_text_KeyError_iff (r : pyval) (k : string) :
  extract_text r = Raise (mkExn "KeyError" k)
  ↔ (∃ d : gmap string pyval,
       r = PDict d ∧ d !! "choices" = None ∧ k = "choices")
    ∨ (∃ (d d0 : gmap string pyval) (others : list pyval),
         r = PDict d ∧ d !! "choices" = Some (PList (PDict d0 :: others))
         ∧ d0 !! "text" = None ∧ k = "text")
    ∨ (∃ d d' : gmap string pyval,
         r = PDict d ∧ d !! "choices" = Some (PDict d') ∧ k = "0").
Proof.
  split.
  - unfold extract_text. destruct r as [| | | |d]; simpl; try discriminate.
    destruct (d !! "choices") as [c|] eqn:Hc; simpl.
    + destruct c as [| |s|l|d']; simpl; try discriminate.
      * rewrite py_index_0.
        destruct (head (list_ascii_of_string s)); simpl; discriminate.
      * rewrite py_index_0. destruct l as [|first others]; simpl; [discriminate|].
        destruct first as [| | | |d0]; simpl; try discriminate.
        destruct (d0 !! "text") as [x|] eqn:Hx; [discriminate|].
        intros [= <-]. right; left. by exists d, d0, others.
      * intros [= <-]. right; right. by exists d, d'.
    + intros [= <-]. left. by exists d.
  - intros [(d & -> & Hd & ->) | [(d & d0 & others & -> & Hd & Ht & ->)
                                 | (d & d' & -> & Hd & ->)]];
      unfold extract_text; cbn [getitem_str bindR]; rewrite Hd;
      cbn [bindR getitem_int]; [done | | done].
    rewrite py_index_0. cbn [head bindR getitem_str]. by rewrite Ht.
Qed.

(** ** Further properties of the cells and of a run *)

Lemma call_then_print_run (eng p : string) (t m : Z) (w : World) :
  (r ← Completion_create eng p t m; assign_response r;; print_first_text) w
  = cell_result extract_text (mkRequest eng p t m) w.
Proof.
  unfold cell_result, mbind, M_bind, Completion_create, assign_response,
    print_first_text, read_response, lift, print, emit; simpl.
  destruct (w_endpoint w (w_api_key w) (w_trace w) (mkRequest eng p t m))
    as [r|e]; simpl; [|done].
  unfold mbind, M_bind; simpl. by destruct (extract_text r).
Qed.

Lemma cell_smoke_run (w : World) : cell_smoke w = cell_result Ok smoke_request w.
Proof.
  unfold cell_result, cell_smoke, mbind, M_bind, Completion_create,
    assign_response, read_response, print, emit; simpl. fold smoke_request.
  by destruct (w_endpoint w (w_api_key w) (w_trace w) smoke_request).
Qed.

Lemma cell_table_runs :
  Forall (λ '(show, req, c), ∀ w : World, c w = cell_result show req w) cell_table.
Proof.
  unfold cell_table.
  repeat (apply Forall_cons; split;
          [first [ exact cell_smoke_run
                 | intros w; apply call_then_print_run ] |]).
  apply Forall_nil_2.
Qed.

Lemma cell_result_frame show req w :
  w_environ (cell_result show req w).2 = w_environ w
  ∧ w_endpoint (cell_result show req w).2 = w_endpoint w
  ∧ w_api_key (cell_result show req w).2 = w_api_key w.
Proof.
  unfold cell_result.
  destruct (w_endpoint w (w_api_key w) (w_trace w) req) as [r|e]; [|done].
  simpl. by destruct (show r).
Qed.

(** X4: each completion cell leaves the environment, the endpoint and the
    credential alone.  What it does to the global [response] depends on the
    call only: when the call raises, [response] keeps the value an earlier
    cell gave it; when the call returns, [response] is the answer, also when
    reading the answer then fails. *)
Theorem cells_rebind_response_only_on_answer :
  Forall (λ '(show, req, c), ∀ w : World,
    w_environ (c w).2 = w_environ w
    ∧ w_endpoint (c w).2 = w_endpoint w
    ∧ w_api_key (c w).2 = w_api_key w
    ∧ w_response (c w).2
      = match w_endpoint w (w_api_key w) (w_trace w) req with
        | Ok r => Some r
        | Raise _ => w_response w
        end) cell_table.
Proof.
  eapply Forall_impl; [exact cell_table_runs|].
  intros [[show req] c] H w. rewrite H.
  destruct (cell_result_frame show req w) as (He & Hp & Hk).
  split_and!; try done.
  unfold cell_result.
  destruct (w_endpoint w (w_api_key w) (w_trace w) req) as [r|e]; [|done].
  simpl. by destruct (show r).
Qed.

Lemma run_cells_frame (tbl : list ((pyval → PyResult pyval) * Request * M unit)) :
  Forall (λ '(show, req, c), ∀ w : World, c w = cell_result show req w) tbl →
  ∀ w : World,
    w_environ (run_cells tbl.*2 w).2 = w_environ w
    ∧ w_endpoint (run_cells tbl.*2 w).2 = w_endpoint w
    ∧ w_api_key (run_cells tbl.*2 w).2 = w_api_key w.
Proof.
  induction 1 as [|[[show req] c] tbl Hc _ IH]; intros w; [done|].
  rewrite !fmap_cons, run_cells_cons. cbn [fst snd].
  destruct (cell_result_frame show req w) as (He & Hp & Hk).
  rewrite <- (Hc w) in He, Hp, Hk.
  destruct (c w) as [[[]|e] w1]; cbn [fst snd] in *; [|done].
  destruct (IH w1) as (He' & Hp' & Hk'). by rewrite He', Hp', Hk'.
Qed.

(** X5: however a run of the notebook ends, the credential it leaves in
    [openai.api_key] is the one the setup cell read (the value of
    OPENAI_API_KEY, or [None]): no later cell changes it, and no cell changes
    the environment. *)
Theorem credential_fixed_after_setup :
  ∀ w : World,
    w_api_key (notebook w).2
    = match w_environ w !! "OPENAI_API_KEY" with
      | Some v => PStr v
      | None => PNone
      end
    ∧ w_environ (notebook w).2 = w_environ w.
Proof.
  intros w. unfold notebook. rewrite <- cell_table_cells.
  rewrite run_cells_cons, cell_setup_runs.
  destruct (run_cells_frame cell_table cell_table_runs
    (mkWorld (w_environ w) (w_endpoint w)
       (match w_environ w !! "OPENAI_API_KEY" with
        | Some v => PStr v
        | None => PNone
        end)
       (w_response w) (w_trace w ++ [EGetenv "OPENAI_API_KEY"])))
    as (He & _ & Hk).
  by rewrite He, Hk.
Qed.

Lemma cell_result_trace show req w :
  match (cell_result show req w).1 with
  | Ok _ => ∃ t, w_trace (cell_result show req w).2 = w_trace w ++ [ECreate req; EPrint t]
  | Raise _ => w_trace (cell_result show req w).2 = w_trace w ++ [ECreate req]
  end.
Proof.
  unfold cell_result.
  destruct (w_endpoint w (w_api_key w) (w_trace w) req) as [r|e]; [|done].
  destruct (show r) as [t|e]; simpl; [|done].
  exists t. by rewrite <- app_assoc.
Qed.

(** The trace of a run of cells: completed exchanges, then, when the run
    ends with an exception, the request of the cell that raised it; the
    values printed and the exception are those the endpoint's answers give. *)
Lemma run_cells_exchanges (tbl : list ((pyval → PyResult pyval) * Request * M unit)) :
  Forall (λ '(show, req, c), ∀ w : World, c w = cell_result show req w) tbl →
  ∀ w : World,
    ∃ ts : list pyval,
      Answered (w_api_key w) (w_endpoint w) (w_trace w) tbl.*1 ts
        (run_cells tbl.*2 w).1
      ∧ match (run_cells tbl.*2 w).1 with
        | Ok _ =>
            List.length ts = List.length tbl
            ∧ w_trace (run_cells tbl.*2 w).2
              = w_trace w ++ exchanges tbl.*1.*2 ts
        | Raise _ =>
            ∃ req, tbl.*1.*2 !! List.length ts = Some req
                   ∧ w_trace (run_cells tbl.*2 w).2
                     = w_trace w ++ exchanges tbl.*1.*2 ts ++ [ECreate req]
        end.
Proof.
  induction 1 as [|[[show req] c] tbl Hc _ IH]; intros w.
  - exists []. split; [apply answered_done | simpl; by rewrite app_nil_r].
  - rewrite !fmap_cons, run_cells_cons. cbn [fst snd].
    rewrite (Hc w). unfold cell_result.
    destruct (w_endpoint w (w_api_key w) (w_trace w) req) as [r|e] eqn:Hcall.
    + destruct (show r) as [t|e] eqn:Hshow; unfold emit;
        cbn [fst snd w_environ w_endpoint w_api_key w_response w_trace].
      * destruct (IH (mkWorld (w_environ w) (w_endpoint w) (w_api_key w) (Some r)
                        ((w_trace w ++ [ECreate req]) ++ [EPrint t])))
          as (ts & Hans & Hts).
        cbn [w_endpoint w_api_key w_trace w_environ w_response] in Hans, Hts.
        exists (t :: ts). revert Hans Hts.
        destruct (run_cells _ _) as [[[]|e'] w2]; cbn [fst snd];
          rewrite <- !app_assoc; cbn [app]; intros Hans Hts.
        -- split; [by eapply answered_shown|].
           destruct Hts as [Hlen ->]. split; [simpl; by rewrite Hlen|].
           unfold exchanges. cbn [zip_with List.concat app].
           by rewrite <- ?app_assoc.
        -- split; [by eapply answered_shown|].
           destruct Hts as (req' & Hreq' & ->). exists req'. split; [exact Hreq'|].
           unfold exchanges. cbn [zip_with List.concat app].
           by rewrite <- ?app_assoc.
      * exists []. split; [by eapply answered_show_raised|].
        exists req. split; reflexivity.
    + exists []. split; [by eapply answered_call_raised|].
      exists req. split; reflexivity.
Qed.

(** X6: in every run of the notebook the trace is the environment read followed
    by completed exchanges, each a request of the notebook, in order, then
    the print of what the cell shows of the endpoint's answer to it: the
    whole answer for cell 2, the first candidate's text for cells 3 to 9,
    the endpoint being asked with the credential the setup cell read and
    the trace as it stands.  A run that ends normally has all eight
    exchanges.  A run that ends with an exception ends its trace with the
    request of the failing cell, for which nothing is printed, and no later
    cell is run; the exception is the one the endpoint raised on that
    request, or the one reading its answer raised. *)
Theorem notebook_trace_is_exchanges :
  ∀ w : World,
    ∃ ts : list pyval,
      Answered
        (match w_environ w !! "OPENAI_API_KEY" with
         | Some v => PStr v
         | None => PNone
         end)
        (w_endpoint w) (w_trace w ++ [EGetenv "OPENAI_API_KEY"])
        ((Ok, smoke_request)
         :: ((λ p, (extract_text, trend_request p))
             <$> prompt_cell3 :: few_shot_prompts))
        ts (notebook w).1
      ∧ match (notebook w).1 with
        | Ok _ =>
            List.length ts = 8%nat
            ∧ emitted notebook w
              = EGetenv "OPENAI_API_KEY" :: exchanges notebook_requests ts
        | Raise _ =>
            ∃ req, notebook_requests !! List.length ts = Some req
                   ∧ emitted notebook w
                     = EGetenv "OPENAI_API_KEY"
                       :: exchanges notebook_requests ts ++ [ECreate req]
        end.
Proof.
  intros w. unfold notebook. rewrite <- cell_table_cells.
  pose proof (run_cells_cons cell_setup cell_table.*2 w) as Hrun.
  rewrite cell_setup_runs in Hrun.
  destruct (run_cells_exchanges cell_table cell_table_runs (cell_setup w).2)
    as (ts & Hans & Hts).
  rewrite cell_setup_runs in Hans, Hts.
  cbn [snd w_trace w_api_key w_endpoint] in Hans, Hts.
  rewrite cell_table_requests in Hts. rewrite <- Hrun in Hans, Hts.
  change (cell_table.*1)
    with ((Ok, smoke_request)
          :: ((λ p, (extract_text, trend_request p))
              <$> prompt_cell3 :: few_shot_prompts)) in Hans.
  exists ts. split; [exact Hans|]. clear Hans. revert Hts. unfold emitted.
  destruct (run_cells _ w) as [[[]|e] w2]; cbn [fst snd]; intros Hts.
  - destruct Hts as [Hlen Htr]. split; [exact Hlen|].
    rewrite Htr, <- app_assoc. apply drop_app_length.
  - destruct Hts as (req & Hreq & Htr). exists req. split; [exact Hreq|].
    rewrite Htr, <- app_assoc. apply drop_app_length.
Qed.

(** X7: running a completion cell a second time sends its request a second
    time: nothing is cached.  (When the first run raises, the second one
    does not take place.) *)
Theorem rerun_sends_request_again :
  Forall (λ '(_, req, c), ∀ w : World,
    requests (emitted (c;; c) w)
    = match (c w).1 with
      | Ok _ => [req; req]
      | Raise _ => [req]
      end) cell_table.
Proof.
  eapply Forall_impl; [exact cell_table_single_shot|].
  intros [[show req] c] H w.
  destruct (single_shot_trace _ _ _ _ (H w)) as (evs & Htr & Hreq & _).
  assert ((c;; c) w = match c w with
                      | (Ok _, w') => c w'
                      | (Raise e, w') => (Raise e, w')
                      end) as Hseq by reflexivity.
  destruct (c w) as [[[]|e] w1] eqn:Hcw; cbn [fst snd] in *.
  - destruct (single_shot_trace _ _ _ _ (H w1)) as (evs' & Htr' & Hreq' & _).
    rewrite (emitted_app _ _ (evs ++ evs')).
    + rewrite requests_app, Hreq, Hreq'. reflexivity.
    + rewrite Hseq, Htr', Htr, <- app_assoc. reflexivity.
  - rewrite (emitted_app _ _ evs); [exact Hreq | by rewrite Hseq].
Qed.

Lemma cell_table_shows :
  Forall (λ '(show, _, _), show = Ok ∨ show = extract_text) cell_table.
Proof.
  unfold cell_table.
  repeat (apply Forall_cons; split; [by (left + right)|]).
  apply Forall_nil_2.
Qed.

(** An exception that ends a run of cells was raised by the endpoint on one
    of their requests, or while reading one of its answers. *)
Lemma run_cells_failure (tbl : list ((pyval → PyResult pyval) * Request * M unit)) :
  Forall (λ '(show, req, c), ∀ w : World, c w = cell_result show req w) tbl →
  Forall (λ '(show, _, _), show = Ok ∨ show = extract_text) tbl →
  ∀ (w : World) (e : PyExn),
    (run_cells tbl.*2 w).1 = Raise e →
    ∃ (key : pyval) (tr : list Event) (req : Request),
      req ∈ tbl.*1.*2
      ∧ (w_endpoint w key tr req = Raise e
         ∨ ∃ r, w_endpoint w key tr req = Ok r ∧ extract_text r = Raise e).
Proof.
  induction 1 as [|[[show req] c] tbl Hc _ IH]; intros Hshow w e; [done|].
  apply Forall_cons in Hshow as [Hs Hshow].
  rewrite !fmap_cons, run_cells_cons. cbn [fst snd].
  destruct (cell_result_frame show req w) as (_ & Hp & _).
  rewrite (Hc w) in *. unfold cell_result in *.
  destruct (w_endpoint w (w_api_key w) (w_trace w) req) as [r|e'] eqn:Hcall.
  - destruct (show r) as [t|e'] eqn:Hr; cbn [fst snd] in *.
    + intros Hrun. destruct (IH Hshow _ _ Hrun) as (key & tr & req' & Hin & Hor).
      exists key, tr, req'. split; [by right|]. by rewrite <- Hp.
    + intros [= ->]. exists (w_api_key w), (w_trace w), req.
      split; [by left|]. right. exists r. split; [done|].
      destruct Hs as [-> | ->]; [discriminate Hr | exact Hr].
  - intros [= ->]. exists (w_api_key w), (w_trace w), req.
    split; [by left | by left].
Qed.



(** X9: when the endpoint answers every request with a response that has a
    first candidate with a text, the notebook runs to its end: all eight
    requests are sent, in order. *)
Theorem notebook_completes_when_answered :
  ∀ w : World,
    (∀ (key : pyval) (tr : list Event) (req : Request),
       ∃ r t, w_endpoint w key tr req = Ok r ∧ extract_text r = Ok t) →
    (notebook w).1 = Ok tt
    ∧ requests (emitted notebook w) = notebook_requests.
Proof.
  intros w Hgood.
  assert ((notebook w).1 = Ok tt) as Hok.
  { destruct (notebook w).1 as [[]|e] eqn:Hres; [done|]. exfalso.
    revert Hres. unfold notebook. rewrite <- cell_table_cells.
    rewrite run_cells_cons, cell_setup_runs. intros Hrun.
    destruct (run_cells_failure cell_table cell_table_runs cell_table_shows
                _ _ Hrun) as (key & tr & req & _ & Hor).
    cbn [w_endpoint] in Hor.
    destruct (Hgood key tr req) as (r & t & Hcall & Hext).
    destruct Hor as [Hraise | (r' & Hcall' & Hext')]; [congruence|].
    rewrite Hcall in Hcall'. injection Hcall' as <-. congruence. }
  split; [exact Hok|].
  destruct (notebook_trace w) as (evs & rest & -> & _ & Hreq & _ & Hall).
  cbn [requests omap list_omap]. fold (requests evs). exact (Hall Hok).
Qed.

Lemma notebook_completes_when_answered_witness :
  (∀ (key : pyval) (tr : list Event) (req : Request),
     ∃ r t, w_endpoint (world_answering ∅ stub_response) key tr req = Ok r
            ∧ extract_text r = Ok t)
  ∧ (notebook (world_answering ∅ stub_response)).1 = Ok tt
  ∧ requests (emitted notebook (world_answering ∅ stub_response))
    = notebook_requests.
Proof.
  assert (∀ (key : pyval) (tr : list Event) (req : Request),
            ∃ r t, w_endpoint (world_answering ∅ stub_response) key tr req = Ok r
                   ∧ extract_text r = Ok t) as H.
  { intros key tr req.
    exists stub_response, (PStr (nl +:+ nl +:+ "This is a test")).
    split; [reflexivity | vm_compute; reflexivity]. }
  split; [exact H|].
  exact (notebook_completes_when_answered (world_answering ∅ stub_response) H).
Defined.

(** X10: a response without candidates does not stop cell 2, which prints the
    response whole; it stops cell 3.  Against an endpoint that always answers
    with such a response, the run sends two requests, prints the response
    once and ends with the IndexError of the subscript [[0]]. *)
Theorem no_candidates_stops_run_at_first_trend_cell :
  ∀ (rest : gmap string pyval) (env : gmap string string),
    let r := PDict (<["choices" := PList []]> rest) in
    (notebook (world_answering env r)).1
    = Raise (mkExn "IndexError" "list index out of range")
    ∧ emitted notebook (world_answering env r)
      = [EGetenv "OPENAI_API_KEY"; ECreate smoke_request; EPrint r;
         ECreate (trend_request prompt_cell3)].
Proof.
  intros rest env r.
  assert (extract_text r = Raise (IndexError "list")) as Hext
    by apply extract_text_no_candidate, lookup_insert_eq.
  assert (notebook (world_answering env r)
          = (Raise (IndexError "list"),
             mkWorld env (λ _ _ _, Ok r)
               (match env !! "OPENAI_API_KEY" with
                | Some v => PStr v
                | None => PNone
                end)
               (Some r)
               [EGetenv "OPENAI_API_KEY"; ECreate smoke_request; EPrint r;
                ECreate (trend_request prompt_cell3)])) as Hrun.
  { unfold notebook, completion_cells.
    rewrite run_cells_cons, cell_setup_runs.
    rewrite run_cells_cons, cell_smoke_run. unfold cell_result at 1.
    cbn [w_endpoint w_environ w_api_key w_response w_trace world_answering emit app].
    rewrite run_cells_cons. unfold cell3. rewrite call_then_print_run.
    unfold cell_result.
    cbn [w_endpoint w_environ w_api_key w_response w_trace emit app].
    rewrite Hext. reflexivity. }
  split; [by rewrite Hrun|].
  unfold emitted. rewrite Hrun. reflexivity.
Qed.

Lemma cell_result_fresh show req w key resp :
  w_api_key w = key →
  cell_result show req (mkWorld (w_environ w) (w_endpoint w) key resp (w_trace w))
  = match cell_result show req w with
    | (Ok u, w') => (Ok u, w')
    | (Raise e, w') =>
        (Raise e, mkWorld (w_environ w') (w_endpoint w') (w_api_key w')
                    (match w_endpoint w (w_api_key w) (w_trace w) req with
                     | Ok r => Some r
                     | Raise _ => resp
                     end)
                    (w_trace w'))
    end.
Proof.
  intros <-. unfold cell_result. cbn [w_environ w_endpoint w_api_key w_trace].
  destruct (w_endpoint w (w_api_key w) (w_trace w) req) as [r|e]; [|done].
  by destruct (show r).
Qed.

Lemma run_cells_fresh (tbl : list ((pyval → PyResult pyval) * Request * M unit)) :
  Forall (λ '(show, req, c), ∀ w : World, c w = cell_result show req w) tbl →
  ∀ (w : World) (resp : option pyval),
    (run_cells tbl.*2
       (mkWorld (w_environ w) (w_endpoint w) (w_api_key w) resp (w_trace w))).1
    = (run_cells tbl.*2 w).1
    ∧ w_trace (run_cells tbl.*2
         (mkWorld (w_environ w) (w_endpoint w) (w_api_key w) resp (w_trace w))).2
      = w_trace (run_cells tbl.*2 w).2.
Proof.
  induction 1 as [|[[show req] c] tbl Hc _ IH]; intros w resp; [done|].
  rewrite !fmap_cons, !run_cells_cons. cbn [fst snd].
  rewrite !Hc, (cell_result_fresh show req w (w_api_key w) resp eq_refl).
  by destruct (cell_result show req w) as [[[]|e] w1].
Qed.

(** X11: a run of the notebook does not depend on what [openai.api_key] and
    [response] held before it: the setup cell overwrites the former, and
    every cell binds [response] before it reads it.  The outcome and the
    trace are the same from any two such starting states. *)
Theorem notebook_ignores_earlier_key_and_response :
  ∀ (w : World) (key : pyval) (resp : option pyval),
    (notebook (mkWorld (w_environ w) (w_endpoint w) key resp (w_trace w))).1
    = (notebook w).1
    ∧ w_trace (notebook (mkWorld (w_environ w) (w_endpoint w) key resp (w_trace w))).2
      = w_trace (notebook w).2.
Proof.
  intros w key resp. unfold notebook. rewrite <- cell_table_cells.
  rewrite !run_cells_cons, !cell_setup_runs.
  cbn [w_environ w_endpoint w_api_key w_response w_trace].
  apply (run_cells_fresh cell_table cell_table_runs
           (mkWorld (w_environ w) (w_endpoint w)
              (match w_environ w !! "OPENAI_API_KEY" with
               | Some v => PStr v
               | None => PNone
               end)
              (w_response w) (w_trace w ++ [EGetenv "OPENAI_API_KEY"])) resp).
Qed.
